(** * RootBot: routing turns between the root bot and its skill

    A shallow embedding of [bots/root_bot.py] of the
    80.skills-simple-bot-to-bot sample.  The class [RootBot] overrides four
    handlers of the SDK's [ActivityHandler] and owns one private helper,
    [__send_to_skill].  Every handler is an [async] method that talks to
    three collaborators: the reply sink of the turn context, the
    conversation state with its [activeSkillProperty] accessor, and the
    skill HTTP client.  The embedding threads those effects through a
    state-and-exception monad whose state records the cached property, the
    persisted property and the sequence of collaborator calls. *)

From Stdlib Require Import String Ascii Bool List.
From stdpp Require Import base option list gmap strings.

Local Open Scope string_scope.
Local Open Scope list_scope.

(** ** The Python fragments the bot relies on *)

Module Py.

(** Truth value and [str()] rendering, the two protocols the source
    applies to activity fields ([if x:] and f-string interpolation). *)
Class Object (A : Type) := {
  truth : A -> bool;
  str : A -> string
}.

(** A [str] is falsy exactly when it is empty and renders as itself. *)
#[global] Instance str_object : Object string := {|
  truth s := match s with EmptyString => false | String _ _ => true end;
  str s := s
|}.

(** [None] is falsy and renders as the word None; any other object
    follows its own protocol. *)
#[global] Instance optional_object {A} `{Object A} : Object (option A) := {|
  truth o := match o with None => false | Some x => truth x end;
  str o := match o with None => "None" | Some x => str x end
|}.

(** [sub in s] on two strings: some suffix of [s] starts with [sub]. *)
Fixpoint contains (sub s : string) : bool :=
  match s with
  | EmptyString => String.prefix sub EmptyString
  | String _ rest => String.prefix sub s || contains sub rest
  end.

(** The exceptions that can escape a turn: [in] applied to [None], a
    missing dictionary key, and whatever the skill client raises. *)
Inductive Exception :=
| TypeError
| KeyError (key : string)
| ClientError.

(** [d[k]] on a dictionary with string keys. *)
Definition getitem {V} (d : gmap string V) (k : string) : Exception + V :=
  match d !! k with
  | Some v => inr v
  | None => inl (KeyError k)
  end.

End Py.

(** ** Schema types *)

Inductive ActivityTypes :=
| message
| contact_relation_update
| conversation_update
| typing
| end_of_conversation
| event
| invoke
| delete_user_data
| message_update
| message_delete
| installation_update
| message_reaction
| suggestion
| trace
| handoff.

#[global] Instance ActivityTypes_eq_dec : EqDecision ActivityTypes.
Proof. solve_decision. Defined.

Module ChannelAccount.
Record t := { id : string }.
End ChannelAccount.

Record BotFrameworkSkill := {
  skill_id : string;
  app_id : string;
  skill_endpoint : string
}.

(** The constants of the module. *)
Definition ACTIVE_SKILL_PROPERTY_NAME : string := "activeSkillProperty".
Definition TARGET_SKILL_ID : string := "EchoSkillBot".

(** Characters that cannot be written inside a literal. *)
Definition dquote : string := String (ascii_of_nat 34) EmptyString.
Definition newline : string := String (ascii_of_nat 10) EmptyString.

(** The fixed texts the bot sends. *)
Definition CONNECTING_TEXT : string := "Got it, connecting you to the skill...".
Definition HELP_TEXT : string :=
  "Me no nothin'. Say " +:+ dquote +:+ "skill" +:+ dquote +:+ " and I'll patch you through".
Definition BACK_TEXT : string :=
  "Back in the root bot. Say " +:+ dquote +:+ "skill" +:+ dquote +:+ " and I'll patch you through".
Definition WELCOME_TEXT : string := "Hello and welcome!".

(** ** Awaited calls

    An awaited coroutine runs to completion on the current world and either
    returns or raises; the effects made before an exception stay. *)

Inductive Outcome (A : Type) :=
| Returned (result : A)
| Raised (exn : Py.Exception).
Arguments Returned {A} result.
Arguments Raised {A} exn.

Section RootBot.

(** The payload type of [Activity.value] is left open: the bot only tests
    its truth value and interpolates it. *)
Context {Value : Type} `{!Py.Object Value}.

(** The rendering of a member of the [ActivityTypes] enumeration inside an
    f-string, fixed by the schema package. *)
Context (ActivityTypes_str : ActivityTypes -> string).

(** The fields of an inbound activity that the bot reads.  The activity is
    handed to the skill client as a whole. *)
Record Activity := {
  type : ActivityTypes;
  text : option string;
  code : option string;
  value : option Value;
  recipient : ChannelAccount.t;
  members_added : list ChannelAccount.t
}.

(** *** Collaborators *)

(** One entry per call made on a collaborator, in program order. *)
Inductive Call :=
| Sent (reply : string)
| Saved (force : bool) (written : option string)
| Posted (from_bot_id : string) (to_skill : BotFrameworkSkill)
         (service_url : string) (forwarded : Activity).

(** What a turn can observe and change: the property cached for the turn,
    the property in storage, and the calls made so far. *)
Record World := {
  cached : option string;
  stored : option string;
  calls : list Call
}.

Definition Turn (A : Type) : Type := World -> Outcome A * World.

#[global] Instance Turn_ret : MRet Turn := fun A x w => (Returned x, w).

#[global] Instance Turn_bind : MBind Turn := fun A B k m w =>
  match m w with
  | (Returned x, w') => k x w'
  | (Raised e, w') => (Raised e, w')
  end.

Definition raise {A} (e : Py.Exception) : Turn A := fun w => (Raised e, w).

Definition lift {A} (r : Py.Exception + A) : Turn A :=
  match r with
  | inl e => raise e
  | inr x => mret x
  end.

(** [for x in xs: body(x)] *)
Fixpoint for_each {A} (xs : list A) (body : A -> Turn unit) : Turn unit :=
  match xs with
  | [] => mret tt
  | x :: rest => body x ;; for_each rest body
  end.

Definition record (c : Call) : Turn unit :=
  fun w => (Returned tt,
            {| cached := cached w; stored := stored w; calls := calls w ++ [c] |}).

(** Modelled from the spec: the reply sink [sendActivity(activity|text)] of
    the turn context, which lives in the SDK.  A text and the message
    activity [MessageFactory.text] builds from it are the same reply. *)
Definition send_activity (reply : string) : Turn unit := record (Sent reply).

(** Modelled from the spec: the keyed state accessor of the SDK with its
    operations [get], [set], [delete] and [saveChanges(force)].  The
    property is read and written in the turn's cache; saving writes the
    cache through to storage.  Deleting an absent property changes
    nothing. *)
Definition active_skill_property_get : Turn (option string) :=
  fun w => (Returned (cached w), w).

Definition active_skill_property_set (v : string) : Turn unit :=
  fun w => (Returned tt,
            {| cached := Some v; stored := stored w; calls := calls w |}).

Definition active_skill_property_delete : Turn unit :=
  fun w => (Returned tt,
            {| cached := None; stored := stored w; calls := calls w |}).

Definition save_changes (force : bool) : Turn unit :=
  fun w => (Returned tt,
            {| cached := cached w; stored := cached w;
               calls := calls w ++ [Saved force (cached w)] |}).

(** Modelled from the spec: the skill transport
    [postActivity(botAppId, skillDescriptor, hostEndpoint, activity)],
    which answers with a status or fails.  [None] stands for a failure,
    which the client raises. *)
Record BotFrameworkHttpClient := {
  respond : string -> BotFrameworkSkill -> string -> Activity -> option nat
}.

Definition post_activity (client : BotFrameworkHttpClient) (from_bot_id : string)
    (to_skill : BotFrameworkSkill) (service_url : string) (a : Activity) : Turn nat :=
  record (Posted from_bot_id to_skill service_url a) ;;
  match respond client from_bot_id to_skill service_url a with
  | Some status => mret status
  | None => raise Py.ClientError
  end.

(** The configuration objects of [config.py], taken as given. *)
Record SkillConfiguration := {
  SKILL_HOST_ENDPOINT : string;
  SKILLS : gmap string BotFrameworkSkill
}.

(** *** The bot *)

(** The attributes [__init__] stores.  The conversation state and its
    accessor are the [cached] and [stored] components of the world. *)
Record RootBot := {
  _bot_id : string;
  _skill_client : BotFrameworkHttpClient;
  _skills_config : SkillConfiguration
}.

Context (self : RootBot).

Definition send_to_skill (a : Activity) (target_skill : BotFrameworkSkill) : Turn unit :=
  save_changes true ;;
  post_activity (_skill_client self) (_bot_id self) target_skill
          (SKILL_HOST_ENDPOINT (_skills_config self)) a ;;
  mret tt.

(** How a call of [__send_to_skill] ends: as the transport call does. *)
Definition delivery (a : Activity) (target_skill : BotFrameworkSkill) : Outcome unit :=
  match respond (_skill_client self) (_bot_id self) target_skill
          (SKILL_HOST_ENDPOINT (_skills_config self)) a with
  | Some _ => Returned tt
  | None => Raised Py.ClientError
  end.

(** [sub in text], where [text] may be [None]. *)
Definition contained_in (sub : string) (container : option string) : Turn bool :=
  match container with
  | Some s => mret (Py.contains sub s)
  | None => raise Py.TypeError
  end.

Definition on_message_activity (a : Activity) : Turn unit :=
  found ← contained_in "skill" (text a);
  if found : bool then
    send_activity CONNECTING_TEXT ;;
    active_skill_property_set TARGET_SKILL_ID ;;
    target_skill ← lift (Py.getitem (SKILLS (_skills_config self)) TARGET_SKILL_ID);
    send_to_skill a target_skill
  else
    send_activity HELP_TEXT.

(** The local [eoc_activity_message] of [on_end_of_conversation_activity]. *)
Definition eoc_activity_message (a : Activity) : string :=
  let m := "Received " +:+ ActivityTypes_str end_of_conversation +:+ "."
           +:+ newline +:+ newline +:+ "Code: " +:+ Py.str (code a) in
  let m := if Py.truth (text a)
           then m +:+ (newline +:+ newline +:+ "Text: " +:+ Py.str (text a))
           else m in
  let m := if Py.truth (value a)
           then m +:+ (newline +:+ newline +:+ "Value: " +:+ Py.str (value a))
           else m in
  m.

Definition on_end_of_conversation_activity (a : Activity) : Turn unit :=
  active_skill_property_delete ;;
  send_activity (eoc_activity_message a) ;;
  send_activity BACK_TEXT ;;
  save_changes true.

Definition on_members_added_activity (members : list ChannelAccount.t)
    (a : Activity) : Turn unit :=
  for_each members (fun member =>
    if decide (ChannelAccount.id member <> ChannelAccount.id (recipient a))
    then send_activity WELCOME_TEXT
    else mret tt).

(** Modelled from the spec: the dispatch of the SDK's base class
    [ActivityHandler.on_turn], one handler per activity kind.  The kinds
    [RootBot] does not override have handlers that do nothing; a
    conversation update reaches the members-added handler when it carries
    added members. *)
Definition on_conversation_update_activity (a : Activity) : Turn unit :=
  match members_added a with
  | [] => mret tt
  | _ :: _ => on_members_added_activity (members_added a) a
  end.

Definition super_on_turn (a : Activity) : Turn unit :=
  match type a with
  | message => on_message_activity a
  | conversation_update => on_conversation_update_activity a
  | end_of_conversation => on_end_of_conversation_activity a
  | _ => mret tt
  end.

(** [RootBot.on_turn].  The inner block yields [true] when it took the
    early [return]. *)
Definition on_turn (a : Activity) : Turn unit :=
  returned ←
    (if decide (type a <> end_of_conversation) then
       active_skill_id ← active_skill_property_get;
       if Py.truth active_skill_id then
         (* inside this branch the id is a non-empty string *)
         target_skill ← lift (Py.getitem (SKILLS (_skills_config self))
                                 (default EmptyString active_skill_id));
         send_to_skill a target_skill ;;
         mret true
       else mret false
     else mret false);
  if returned : bool then mret tt else super_on_turn a.

(** *** Conversations

    The host serialises the turns of a conversation.  Each turn starts on
    a fresh turn context whose cache is loaded from storage, and leaves
    behind what it saved. *)
Definition begin_turn (persisted : option string) : World :=
  {| cached := persisted; stored := persisted; calls := [] |}.

Definition process_activity (persisted : option string) (a : Activity)
    : Outcome unit * World :=
  on_turn a (begin_turn persisted).

Definition next_state (persisted : option string) (a : Activity) : option string :=
  stored (snd (process_activity persisted a)).

(** The persisted [activeSkillId] after a history of inbound activities,
    starting from a new conversation. *)
Definition conversation (history : list Activity) : option string :=
  fold_left next_state history None.

(** *** Observations the statements are phrased with *)

(** A message whose text contains the trigger keyword. *)
Definition is_trigger (a : Activity) : bool :=
  match type a, text a with
  | message, Some t => Py.contains "skill" t
  | _, _ => false
  end.

Definition is_reply (c : Call) : bool :=
  match c with
  | Sent _ => true
  | _ => false
  end.

(** Every call of the skill transport in [cs] comes after a forced save;
    [saved] tells whether one was already seen. *)
Fixpoint saved_before_each_post (saved : bool) (cs : list Call) : bool :=
  match cs with
  | [] => true
  | Saved true _ :: rest => saved_before_each_post true rest
  | Posted _ _ _ _ :: rest => saved && saved_before_each_post saved rest
  | _ :: rest => saved_before_each_post saved rest
  end.

(** The ways a turn can go, each with the world it leaves behind. *)
Inductive Path (s : option string) (a : Activity) : Outcome unit * World -> Prop :=
| path_end_of_conversation :
    type a = end_of_conversation ->
    Path s a (Returned tt,
              {| cached := None; stored := None;
                 calls := [Sent (eoc_activity_message a); Sent BACK_TEXT;
                           Saved true None] |})
| path_forwarded (k : string) (sk : BotFrameworkSkill) :
    type a <> end_of_conversation -> s = Some k -> Py.truth s = true ->
    SKILLS (_skills_config self) !! k = Some sk ->
    Path s a (delivery a sk,
              {| cached := s; stored := s;
                 calls := [Saved true s;
                           Posted (_bot_id self) sk
                             (SKILL_HOST_ENDPOINT (_skills_config self)) a] |})
| path_unknown_skill (k : string) :
    type a <> end_of_conversation -> s = Some k -> Py.truth s = true ->
    SKILLS (_skills_config self) !! k = None ->
    Path s a (Raised (Py.KeyError k), begin_turn s)
| path_connected (sk : BotFrameworkSkill) :
    Py.truth s = false -> is_trigger a = true ->
    SKILLS (_skills_config self) !! TARGET_SKILL_ID = Some sk ->
    Path s a (delivery a sk,
              {| cached := Some TARGET_SKILL_ID; stored := Some TARGET_SKILL_ID;
                 calls := [Sent CONNECTING_TEXT;
                           Saved true (Some TARGET_SKILL_ID);
                           Posted (_bot_id self) sk
                             (SKILL_HOST_ENDPOINT (_skills_config self)) a] |})
| path_target_missing :
    Py.truth s = false -> is_trigger a = true ->
    SKILLS (_skills_config self) !! TARGET_SKILL_ID = None ->
    Path s a (Raised (Py.KeyError TARGET_SKILL_ID),
              {| cached := Some TARGET_SKILL_ID; stored := s;
                 calls := [Sent CONNECTING_TEXT] |})
| path_local (outcome : Outcome unit) (replies : list Call) :
    Py.truth s = false -> type a <> end_of_conversation -> is_trigger a = false ->
    Forall (fun c => is_reply c = true) replies ->
    Path s a (outcome, {| cached := s; stored := s; calls := replies |}).

(** The only values the bot is meant to keep in the property. *)
Definition absent_or_target (v : option string) : Prop :=
  v = None \/ v = Some TARGET_SKILL_ID.

Definition writes_absent_or_target (c : Call) : Prop :=
  match c with
  | Saved _ written => absent_or_target written
  | _ => True
  end.

(** The summary as the specification words it: one line per field, each
    only when the field is present. *)
Definition line_if_present {A} `{!Py.Object A} (label : string) (field : option A) : string :=
  match field with
  | Some x => newline +:+ newline +:+ label +:+ ": " +:+ Py.str x
  | None => EmptyString
  end.

Definition summary_of_present_fields (a : Activity) : string :=
  "Received " +:+ ActivityTypes_str end_of_conversation +:+ "."
  +:+ line_if_present "Code" (code a)
  +:+ line_if_present "Text" (text a)
  +:+ line_if_present "Value" (value a).

(** *** The constructor and further observations *)

(** The part of [DefaultConfig] the constructor reads. *)
Record DefaultConfig := {
  APP_ID : string
}.

(** [RootBot.__init__].  Its [conversation_state] argument and the property
    it creates under [ACTIVE_SKILL_PROPERTY_NAME] are the [cached] and
    [stored] components of the world. *)
Definition __init__ (skills_config : SkillConfiguration)
    (skill_client : BotFrameworkHttpClient) (config : DefaultConfig) : RootBot :=
  {| _bot_id := APP_ID config;
     _skill_client := skill_client;
     _skills_config := skills_config |}.

Definition is_post (c : Call) : bool :=
  match c with
  | Posted _ _ _ _ => true
  | _ => false
  end.

(** A transport call that goes out from [bot_id] with callback [host],
    carries the activity [a] and targets a skill found in [skills]. *)
Definition posts_inbound (bot_id host : string)
    (skills : gmap string BotFrameworkSkill) (a : Activity) (c : Call) : Prop :=
  match c with
  | Posted from_bot_id to_skill service_url forwarded =>
      from_bot_id = bot_id /\ service_url = host /\ forwarded = a /\
      exists k, skills !! k = Some to_skill
  | _ => True
  end.

End RootBot.

(** ** A concrete bot, as the sample configures it *)

Module Sample.

Definition echo_skill : BotFrameworkSkill :=
  {| skill_id := "EchoSkillBot"; app_id := "echo-app-id";
     skill_endpoint := "http://localhost:39783/api/messages" |}.

Definition config : SkillConfiguration :=
  {| SKILL_HOST_ENDPOINT := "http://localhost:3978/api/skills";
     SKILLS := {[ "EchoSkillBot" := echo_skill ]} |}.

Definition client : @BotFrameworkHttpClient string :=
  {| respond := fun _ _ _ _ => Some 200 |}.

Definition bot : @RootBot string :=
  {| _bot_id := "root-app-id"; _skill_client := client; _skills_config := config |}.

(** The wire names of the activity types. *)
Definition render (t : ActivityTypes) : string :=
  match t with
  | message => "message"
  | conversation_update => "conversationUpdate"
  | end_of_conversation => "endOfConversation"
  | _ => "other"
  end.

Definition me : ChannelAccount.t := {| ChannelAccount.id := "root-bot" |}.
Definition alice : ChannelAccount.t := {| ChannelAccount.id := "alice" |}.
Definition bob : ChannelAccount.t := {| ChannelAccount.id := "bob" |}.

Definition say (t : string) : @Activity string :=
  {| type := message; text := Some t; code := None; value := None;
     recipient := me; members_added := [] |}.

(** A message that carries no text, such as one with attachments only. *)
Definition textless : @Activity string :=
  {| type := message; text := None; code := None; value := None;
     recipient := me; members_added := [] |}.

Definition finished : @Activity string :=
  {| type := end_of_conversation; text := Some "done"; code := Some "success";
     value := None; recipient := me; members_added := [] |}.

(** An end of conversation that carries no code, no text and no value. *)
Definition bare_end : @Activity string :=
  {| type := end_of_conversation; text := None; code := None;
     value := None; recipient := me; members_added := [] |}.

Definition joined : @Activity string :=
  {| type := conversation_update; text := None; code := None; value := None;
     recipient := me; members_added := [alice; me; bob] |}.

End Sample.

(** ** Bots set up badly *)

Module Faulty.

(** A bot whose configuration registers no skill at all. *)
Definition unconfigured : @RootBot string :=
  {| _bot_id := "root-app-id"; _skill_client := Sample.client;
     _skills_config := {| SKILL_HOST_ENDPOINT := "http://localhost:3978/api/skills";
                          SKILLS := ∅ |} |}.

(** A bot whose skill cannot be reached: every transport call fails. *)
Definition offline : @RootBot string :=
  {| _bot_id := "root-app-id";
     _skill_client := {| respond := fun _ _ _ _ => None |};
     _skills_config := Sample.config |}.

End Faulty.

(** ** Facts about the Python fragments *)

Lemma append_cons (c : ascii) (s t : string) : String c s +:+ t = String c (s +:+ t).
Proof. reflexivity. Qed.

Lemma append_nil_r (s : string) : s +:+ EmptyString = s.
Proof.
  induction s as [|c s IH]; [reflexivity|].
  now rewrite append_cons, IH.
Qed.

Lemma append_assoc (s1 s2 s3 : string) : (s1 +:+ s2) +:+ s3 = s1 +:+ (s2 +:+ s3).
Proof.
  induction s1 as [|c s1 IH]; [reflexivity|].
  now rewrite !append_cons, IH.
Qed.

Lemma prefix_iff (sub s : string) :
  String.prefix sub s = true <-> exists post, s = sub +:+ post.
Proof.
  revert s. induction sub as [|c sub IH]; intros s.
  - split; [intros _; now exists s | intros _; now destruct s].
  - destruct s as [|d s]; simpl.
    + split; [discriminate | intros [post Hpost]; discriminate].
    + destruct (ascii_dec c d) as [->|Hne].
      * rewrite IH. split; intros [post Hpost]; exists post;
          rewrite ?append_cons in *; congruence.
      * split; [discriminate | intros [post Hpost]].
        rewrite append_cons in Hpost. congruence.
Qed.

(** [Py.contains] is the substring relation. *)
Lemma contains_iff (sub s : string) :
  Py.contains sub s = true <-> exists pre post, s = pre +:+ sub +:+ post.
Proof.
  induction s as [|c s IH].
  - change (Py.contains sub EmptyString) with (String.prefix sub EmptyString).
    rewrite prefix_iff. split.
    + intros [post Hpost]. now exists EmptyString, post.
    + intros [pre [post Hs]]. destruct pre; [now exists post | discriminate].
  - change (Py.contains sub (String c s))
      with (String.prefix sub (String c s) || Py.contains sub s).
    rewrite orb_true_iff, IH, (prefix_iff sub (String c s)). split.
    + intros [[post Hpost] | [pre [post Hs]]].
      * now exists EmptyString, post.
      * exists (String c pre), post. now rewrite append_cons, Hs.
    + intros [pre [post Hs]]. destruct pre as [|d pre].
      * left. now exists post.
      * right. exists pre, post. rewrite append_cons in Hs. congruence.
Qed.

Lemma contains_middle (pre sub post : string) :
  Py.contains sub (pre +:+ sub +:+ post) = true.
Proof. apply contains_iff. now exists pre, post. Qed.

(** ** How each handler runs *)

(** Unfolding by name, for use under the abbreviations below. *)
Ltac open_on_turn := unfold on_turn.
Ltac open_super_on_turn := unfold super_on_turn.
Ltac open_next_state := unfold next_state.
Ltac open_process_activity := unfold next_state, process_activity.
Ltac open_conversation := unfold conversation.

Section Handlers.

Context {Value : Type} `{!Py.Object Value}.
Context (ActivityTypes_str : ActivityTypes -> string).
Context (self : @RootBot Value).

#[local] Abbreviation Activity := (@Activity Value).
#[local] Abbreviation World := (@World Value).
#[local] Abbreviation on_turn := (on_turn ActivityTypes_str self).
#[local] Abbreviation super_on_turn := (super_on_turn ActivityTypes_str self).
#[local] Abbreviation process_activity := (process_activity ActivityTypes_str self).
#[local] Abbreviation next_state := (next_state ActivityTypes_str self).
#[local] Abbreviation conversation := (conversation ActivityTypes_str self).
#[local] Abbreviation skills := (SKILLS (_skills_config self)).
#[local] Abbreviation host := (SKILL_HOST_ENDPOINT (_skills_config self)).

Ltac run :=
  unfold on_message_activity, on_end_of_conversation_activity, send_to_skill,
    delivery, post_activity, contained_in, lift, Py.getitem, send_activity,
    active_skill_property_get, active_skill_property_set,
    active_skill_property_delete, save_changes, record, raise,
    mbind, Turn_bind, mret, Turn_ret in *;
  simpl in *.

Lemma send_to_skill_runs (a : Activity) (sk : BotFrameworkSkill) (w : World) :
  send_to_skill self a sk w =
    (delivery self a sk,
     {| cached := cached w; stored := cached w;
        calls := calls w ++ [Saved true (cached w); Posted (_bot_id self) sk host a] |}).
Proof.
  run. rewrite <- app_assoc; simpl.
  now destruct (respond _ _ _ _ _).
Qed.

Lemma on_message_activity_textless (a : Activity) (w : World) :
  text a = None -> on_message_activity self a w = (Raised Py.TypeError, w).
Proof. intros Htext. run. now rewrite Htext. Qed.

Lemma on_message_activity_help (a : Activity) (w : World) (t : string) :
  text a = Some t -> Py.contains "skill" t = false ->
  on_message_activity self a w =
    (Returned tt,
     {| cached := cached w; stored := stored w; calls := calls w ++ [Sent HELP_TEXT] |}).
Proof. intros Htext Hno. run. now rewrite Htext; simpl; rewrite Hno. Qed.

Lemma on_message_activity_trigger (a : Activity) (w : World) (t : string)
    (sk : BotFrameworkSkill) :
  text a = Some t -> Py.contains "skill" t = true ->
  skills !! TARGET_SKILL_ID = Some sk ->
  on_message_activity self a w =
    (delivery self a sk,
     {| cached := Some TARGET_SKILL_ID; stored := Some TARGET_SKILL_ID;
        calls := calls w ++ [Sent CONNECTING_TEXT;
                             Saved true (Some TARGET_SKILL_ID);
                             Posted (_bot_id self) sk host a] |}).
Proof.
  intros Htext Hyes Hsk. run. rewrite Htext; simpl; rewrite Hyes, Hsk; simpl.
  rewrite <- !app_assoc; simpl.
  now destruct (respond _ _ _ _ _).
Qed.

Lemma on_message_activity_unregistered (a : Activity) (w : World) (t : string) :
  text a = Some t -> Py.contains "skill" t = true ->
  skills !! TARGET_SKILL_ID = None ->
  on_message_activity self a w =
    (Raised (Py.KeyError TARGET_SKILL_ID),
     {| cached := Some TARGET_SKILL_ID; stored := stored w;
        calls := calls w ++ [Sent CONNECTING_TEXT] |}).
Proof. intros Htext Hyes Hsk. run. now rewrite Htext; simpl; rewrite Hyes, Hsk. Qed.

Lemma on_end_of_conversation_activity_runs (a : Activity) (w : World) :
  on_end_of_conversation_activity ActivityTypes_str a w =
    (Returned tt,
     {| cached := None; stored := None;
        calls := calls w ++ [Sent (eoc_activity_message ActivityTypes_str a);
                             Sent BACK_TEXT; Saved true None] |}).
Proof. run. now rewrite <- !app_assoc. Qed.

Lemma on_members_added_activity_runs (members : list ChannelAccount.t)
    (a : Activity) (w : World) :
  on_members_added_activity members a w =
    (Returned tt,
     {| cached := cached w; stored := stored w;
        calls := calls w ++
          map (fun _ : ChannelAccount.t => Sent WELCOME_TEXT)
              (filter (fun member => ChannelAccount.id member
                                     <> ChannelAccount.id (recipient a)) members) |}).
Proof.
  unfold on_members_added_activity. revert w.
  induction members as [|member rest IH]; intros w.
  - simpl. rewrite app_nil_r. now destruct w.
  - rewrite filter_cons. simpl for_each.
    unfold mbind at 1, Turn_bind at 1.
    destruct (decide (ChannelAccount.id member <> ChannelAccount.id (recipient a))).
    + run. rewrite IH. simpl. now rewrite <- app_assoc.
    + run. now rewrite IH.
Qed.

Lemma on_conversation_update_activity_runs (a : Activity) (w : World) :
  on_conversation_update_activity a w =
    (Returned tt,
     {| cached := cached w; stored := stored w;
        calls := calls w ++
          map (fun _ : ChannelAccount.t => Sent WELCOME_TEXT)
              (filter (fun member => ChannelAccount.id member
                                     <> ChannelAccount.id (recipient a))
                      (members_added a)) |}).
Proof.
  unfold on_conversation_update_activity.
  destruct (members_added a) as [|member rest] eqn:Hmembers.
  - simpl. rewrite app_nil_r. now destruct w.
  - apply on_members_added_activity_runs.
Qed.

(** *** [on_turn], path by path *)

Lemma on_turn_end_of_conversation (a : Activity) (w : World) :
  type a = end_of_conversation ->
  on_turn a w = on_end_of_conversation_activity ActivityTypes_str a w.
Proof.
  intros Htype. open_on_turn; open_super_on_turn.
  rewrite Htype. now destruct (decide _) as [Hne|_]; [destruct Hne|].
Qed.

Lemma on_turn_idle (a : Activity) (w : World) :
  Py.truth (cached w) = false -> on_turn a w = super_on_turn a w.
Proof.
  intros Hidle. open_on_turn.
  destruct (decide _); [|reflexivity].
  unfold mbind, Turn_bind, active_skill_property_get.
  now rewrite Hidle.
Qed.

Lemma on_turn_active (a : Activity) (w : World) (k : string) (sk : BotFrameworkSkill) :
  type a <> end_of_conversation ->
  cached w = Some k -> Py.truth (cached w) = true -> skills !! k = Some sk ->
  on_turn a w = send_to_skill self a sk w.
Proof.
  intros Htype Hk Htruth Hsk. open_on_turn.
  destruct (decide _); [|contradiction].
  unfold mbind at 1 2, Turn_bind at 1 2, active_skill_property_get.
  rewrite Htruth, Hk.
  unfold lift, default, id, Py.getitem. rewrite Hsk.
  unfold mbind at 1 2, Turn_bind at 1 2. unfold mret at 1, Turn_ret at 1.
  rewrite send_to_skill_runs. unfold mret, Turn_ret.
  now destruct (delivery self a sk) as [[]|e].
Qed.

Lemma on_turn_unregistered (a : Activity) (w : World) (k : string) :
  type a <> end_of_conversation ->
  cached w = Some k -> Py.truth (cached w) = true -> skills !! k = None ->
  on_turn a w = (Raised (Py.KeyError k), w).
Proof.
  intros Htype Hk Htruth Hsk. open_on_turn.
  destruct (decide _); [|contradiction].
  unfold mbind, Turn_bind, active_skill_property_get.
  rewrite Htruth, Hk.
  unfold lift, default, id, Py.getitem. now rewrite Hsk.
Qed.

(** *** What a turn leaves in storage *)

Lemma is_trigger_true (a : Activity) :
  is_trigger a = true <->
  type a = message /\ exists t, text a = Some t /\ Py.contains "skill" t = true.
Proof.
  unfold is_trigger. split.
  - destruct (type a); try discriminate.
    destruct (text a) as [t|]; [|discriminate]. eauto.
  - intros [-> [t [-> Hyes]]]. exact Hyes.
Qed.

Lemma super_on_turn_keeps_storage (a : Activity) (w : World) :
  type a <> end_of_conversation -> is_trigger a = false ->
  stored (snd (super_on_turn a w)) = stored w.
Proof.
  intros Htype Hplain. open_super_on_turn; unfold is_trigger in *.
  destruct (type a); try reflexivity; try contradiction.
  - destruct (text a) as [t|] eqn:Htext.
    + now rewrite (on_message_activity_help a w t Htext Hplain).
    + now rewrite (on_message_activity_textless a w Htext).
  - now rewrite on_conversation_update_activity_runs.
Qed.

Lemma next_state_end_of_conversation (s : option string) (a : Activity) :
  type a = end_of_conversation -> next_state s a = None.
Proof.
  intros Htype. open_process_activity.
  now rewrite on_turn_end_of_conversation, on_end_of_conversation_activity_runs.
Qed.

Lemma next_state_active (k : string) (a : Activity) :
  type a <> end_of_conversation -> Py.truth (Some k) = true ->
  next_state (Some k) a = Some k.
Proof.
  intros Htype Htruth. open_process_activity.
  destruct (skills !! k) as [sk|] eqn:Hsk.
  - now rewrite (on_turn_active _ _ k sk), send_to_skill_runs.
  - now rewrite (on_turn_unregistered _ _ k).
Qed.

Lemma next_state_idle_trigger (a : Activity) (sk : BotFrameworkSkill) :
  is_trigger a = true -> skills !! TARGET_SKILL_ID = Some sk ->
  next_state None a = Some TARGET_SKILL_ID.
Proof.
  intros [Htype [t [Htext Hyes]]]%is_trigger_true Hsk.
  open_process_activity.
  rewrite on_turn_idle by reflexivity.
  open_super_on_turn. rewrite Htype.
  now rewrite (on_message_activity_trigger _ _ t sk).
Qed.

Lemma next_state_idle_unregistered (a : Activity) :
  is_trigger a = true -> skills !! TARGET_SKILL_ID = None ->
  next_state None a = None.
Proof.
  intros [Htype [t [Htext Hyes]]]%is_trigger_true Hsk.
  open_process_activity.
  rewrite on_turn_idle by reflexivity.
  open_super_on_turn. rewrite Htype.
  now rewrite (on_message_activity_unregistered _ _ t).
Qed.

Lemma next_state_idle_other (a : Activity) :
  type a <> end_of_conversation -> is_trigger a = false ->
  next_state None a = None.
Proof.
  intros Htype Hplain. open_process_activity.
  rewrite on_turn_idle by reflexivity.
  now rewrite super_on_turn_keeps_storage.
Qed.

(** *** Conversations *)

Lemma conversation_snoc (history : list Activity) (a : Activity) :
  conversation (history ++ [a]) = next_state (conversation history) a.
Proof. open_conversation. now rewrite fold_left_app. Qed.

(** Storage holds nothing or the target skill, and holds the target only
    if the configuration registers it. *)
Lemma conversation_invariant (history : list Activity) :
  conversation history = None \/
  (conversation history = Some TARGET_SKILL_ID /\ is_Some (skills !! TARGET_SKILL_ID)).
Proof.
  induction history as [|a history IH] using rev_ind; [now left|].
  rewrite conversation_snoc.
  destruct (decide (type a = end_of_conversation)) as [Heoc|Hne].
  { left. now apply next_state_end_of_conversation. }
  destruct IH as [-> | [-> Hreg]].
  - destruct (is_trigger a) eqn:Htrigger.
    + destruct (skills !! TARGET_SKILL_ID) as [sk|] eqn:Hsk.
      * right. split; [now apply (next_state_idle_trigger a sk) | eauto].
      * left. now apply next_state_idle_unregistered.
    + left. now apply next_state_idle_other.
  - right. split; [|exact Hreg]. now apply next_state_active.
Qed.

(** *** Every turn follows one of the paths *)

Lemma all_welcomes (members : list ChannelAccount.t) :
  Forall (fun c : @Call Value => is_reply c = true)
         (map (fun _ : ChannelAccount.t => Sent WELCOME_TEXT) members).
Proof. induction members; simpl; constructor; auto. Qed.

Lemma process_activity_path (s : option string) (a : Activity) :
  Path ActivityTypes_str self s a (process_activity s a).
Proof.
  open_process_activity.
  destruct (decide (type a = end_of_conversation)) as [Heoc|Hne].
  { rewrite on_turn_end_of_conversation, on_end_of_conversation_activity_runs by done.
    now constructor. }
  destruct (Py.truth s) eqn:Htruth.
  - destruct s as [k|]; [|discriminate].
    destruct (skills !! k) as [sk|] eqn:Hsk.
    + rewrite (on_turn_active a _ k sk), send_to_skill_runs by done.
      now apply path_forwarded with (k := k).
    + rewrite (on_turn_unregistered a _ k) by done.
      now apply path_unknown_skill.
  - rewrite on_turn_idle by done.
    destruct (is_trigger a) eqn:Htrigger.
    + pose proof Htrigger as [Htype [t [Htext Hyes]]]%is_trigger_true.
      open_super_on_turn. rewrite Htype.
      destruct (skills !! TARGET_SKILL_ID) as [sk|] eqn:Hsk.
      * rewrite (on_message_activity_trigger a _ t sk) by done.
        now apply path_connected.
      * rewrite (on_message_activity_unregistered a _ t) by done.
        now apply path_target_missing.
    + open_super_on_turn.
      destruct (type a) eqn:Htype; try contradiction;
        try (apply path_local; (done || congruence || constructor)).
      * pose proof Htrigger as Hno. unfold is_trigger in Hno. rewrite Htype in Hno.
        destruct (text a) as [t|] eqn:Htext.
        -- rewrite (on_message_activity_help a _ t) by done.
           apply path_local; try done; try congruence; repeat constructor.
        -- rewrite (on_message_activity_textless a) by done.
           apply path_local; try done; try congruence; constructor.
      * rewrite on_conversation_update_activity_runs.
        apply path_local; try done; try congruence. apply all_welcomes.
Qed.

(** ** The routing properties *)

(** C1: on an activity that is not an end of conversation, taken while the
    conversation's skill id is set (a non-empty id the configuration
    registers), [on_turn] is [__send_to_skill] on the skill registered
    under that id: it makes the forced save and posts the very same
    activity to that skill, sends no reply, runs no handler and keeps the
    id.  While the id is absent [on_turn] is the dispatch on the activity's
    type: a message goes to the message handler, a conversation update to
    the members-added handling.  In a conversation a stored id is always
    non-empty and registered. *)
Theorem handle_turn_forwards_or_dispatches (a : Activity) (w : World) :
  type a <> end_of_conversation ->
  (forall id sk,
     cached w = Some id -> Py.truth (Some id) = true -> skills !! id = Some sk ->
     on_turn a w = send_to_skill self a sk w /\
     on_turn a w =
       (delivery self a sk,
        {| cached := Some id; stored := Some id;
           calls := calls w ++ [Saved true (Some id);
                                Posted (_bot_id self) sk host a] |})) /\
  (cached w = None ->
     on_turn a w = super_on_turn a w /\
     (type a = message -> on_turn a w = on_message_activity self a w) /\
     (type a = conversation_update ->
        on_turn a w = on_conversation_update_activity a w)) /\
  (forall history id,
     conversation history = Some id ->
     Py.truth (Some id) = true /\ exists sk, skills !! id = Some sk).
Proof.
  intros Htype. split; [|split].
  - intros id sk Hid Htruth Hsk.
    assert (on_turn a w = send_to_skill self a sk w) as Hrun.
    { apply (on_turn_active a w id sk); try done. now rewrite Hid. }
    split; [exact Hrun|]. now rewrite Hrun, send_to_skill_runs, Hid.
  - intros Hnone.
    assert (on_turn a w = super_on_turn a w) as Hrun
      by (apply on_turn_idle; now rewrite Hnone).
    split; [exact Hrun|]. rewrite Hrun. open_super_on_turn.
    split; intros ->; reflexivity.
  - intros history id Hid.
    destruct (conversation_invariant history) as [Hnone | [Htarget Hreg]];
      [congruence|].
    assert (id = TARGET_SKILL_ID) as -> by congruence.
    split; [reflexivity | exact Hreg].
Qed.

(** C4: [__send_to_skill] appends a forced save and then the transport
    call, in that order, and the save writes the cached property through to
    storage; in the calls of any whole turn every transport call has a
    forced save before it. *)
Theorem state_saved_before_skill_called (a : Activity) (sk : BotFrameworkSkill)
    (w : World) (s : option string) :
  calls (snd (send_to_skill self a sk w))
    = calls w ++ [Saved true (cached w); Posted (_bot_id self) sk host a] /\
  stored (snd (send_to_skill self a sk w)) = cached w /\
  saved_before_each_post false (calls (snd (process_activity s a))) = true.
Proof.
  rewrite send_to_skill_runs. split; [reflexivity|]. split; [reflexivity|].
  destruct (process_activity_path s a) as [ | | | | | outcome replies _ _ _ Hreplies];
    try reflexivity.
  simpl. induction Hreplies as [|c replies Hc _ IH]; [reflexivity|].
  destruct c; try discriminate. exact IH.
Qed.

(** C5: the transitions of the persisted flag.  A conversation starts with
    the flag absent; an end of conversation leaves it absent; while absent,
    a trigger message sets it to the target skill and anything else leaves
    it absent; while set, anything but an end of conversation leaves it as
    it is.  So the flag stays absent as long as no trigger message has been
    processed. *)
Theorem active_skill_state_machine (sk : BotFrameworkSkill)
    (history : list Activity) (a : Activity) :
  skills !! TARGET_SKILL_ID = Some sk ->
  conversation [] = None /\
  (type a = end_of_conversation -> next_state (conversation history) a = None) /\
  (conversation history = None -> is_trigger a = true ->
     next_state (conversation history) a = Some TARGET_SKILL_ID) /\
  (conversation history = None -> is_trigger a = false ->
     next_state (conversation history) a = None) /\
  (forall id, conversation history = Some id -> type a <> end_of_conversation ->
     next_state (conversation history) a = Some id) /\
  (forallb (fun b => negb (is_trigger b)) history = true ->
     conversation history = None).
Proof.
  intros Hsk. split; [reflexivity|].
  split; [apply next_state_end_of_conversation|].
  split; [intros -> Htrigger; now apply (next_state_idle_trigger a sk)|].
  split.
  { intros -> Hplain.
    destruct (decide (type a = end_of_conversation)).
    - now apply next_state_end_of_conversation.
    - now apply next_state_idle_other. }
  split.
  { intros id Hid Htype.
    destruct (conversation_invariant history) as [Hnone | [Htarget _]]; [congruence|].
    rewrite Hid. apply next_state_active; [exact Htype|].
    assert (id = TARGET_SKILL_ID) as -> by congruence. reflexivity. }
  induction history as [|b history IH] using rev_ind; [reflexivity|].
  rewrite forallb_app. simpl. rewrite andb_true_r.
  intros [Hbefore Hb%negb_true_iff]%andb_true_iff.
  rewrite conversation_snoc, IH by exact Hbefore.
  destruct (decide (type b = end_of_conversation)).
  - now apply next_state_end_of_conversation.
  - now apply next_state_idle_other.
Qed.

(** C6: an end of conversation returns normally and leaves the flag absent
    in the cache and in storage whatever was stored before; handling it a
    second time gives the same state and again returns normally; deleting
    an absent flag changes nothing and raises nothing. *)
Theorem end_of_conversation_clears_idempotently (s : option string) (a : Activity) :
  type a = end_of_conversation ->
  fst (process_activity s a) = Returned tt /\
  next_state s a = None /\
  cached (snd (process_activity s a)) = None /\
  fst (process_activity (next_state s a) a) = Returned tt /\
  next_state (next_state s a) a = next_state s a /\
  (forall w : World, cached w = None ->
     active_skill_property_delete w = (Returned tt, w)).
Proof.
  intros Htype.
  assert (forall s', process_activity s' a =
            (Returned tt,
             {| cached := None; stored := None;
                calls := [Sent (eoc_activity_message ActivityTypes_str a);
                          Sent BACK_TEXT; Saved true None] |})) as Hrun.
  { intros s'. open_process_activity.
    now rewrite on_turn_end_of_conversation, on_end_of_conversation_activity_runs. }
  open_next_state. rewrite !Hrun; simpl; rewrite ?Hrun; simpl.
  repeat split.
  intros [c st cs] Hc. simpl in Hc. subst c. reflexivity.
Qed.

(** C10: after any history the stored flag is absent or the target skill
    id, and a further turn keeps it so in the cache and in everything it
    saves. *)
Theorem active_skill_absent_or_target (history : list Activity) (a : Activity) :
  absent_or_target (conversation history) /\
  absent_or_target (cached (snd (process_activity (conversation history) a))) /\
  Forall writes_absent_or_target (calls (snd (process_activity (conversation history) a))).
Proof.
  assert (absent_or_target (conversation history)) as Hs.
  { destruct (conversation_invariant history) as [Hnone | [Htarget _]];
      [now left | now right]. }
  split; [exact Hs|].
  destruct (process_activity_path (conversation history) a)
    as [ | | | | | outcome replies _ _ _ Hreplies]; simpl.
  - split; [now left|]. repeat (constructor; [first [exact I | now left]|]). constructor.
  - split; [exact Hs|]. repeat (constructor; [first [exact I | exact Hs]|]). constructor.
  - split; [exact Hs|]. constructor.
  - split; [now right|]. repeat (constructor; [first [exact I | now right]|]). constructor.
  - split; [now right|]. repeat (constructor; [exact I|]). constructor.
  - split; [exact Hs|].
    induction Hreplies as [|c replies Hc _ IH]; constructor; [|exact IH].
    now destruct c.
Qed.

(** ** The handlers *)

(** C2, as the code has it: the summary always carries the code line,
    with an absent code rendered by its [str()]; the text line and the value
    line are there exactly when the field is truthy, so an absent text or
    value adds nothing. *)
Theorem eoc_activity_message_lines (a : Activity) :
  eoc_activity_message ActivityTypes_str a =
    ("Received " +:+ ActivityTypes_str end_of_conversation +:+ "."
       +:+ newline +:+ newline +:+ "Code: "
       +:+ match code a with Some c => c | None => "None" end)
    +:+ match text a with
        | Some t => if Py.truth t
                    then newline +:+ newline +:+ "Text: " +:+ t
                    else EmptyString
        | None => EmptyString
        end
    +:+ match value a with
        | Some v => if Py.truth v
                    then newline +:+ newline +:+ "Value: " +:+ Py.str v
                    else EmptyString
        | None => EmptyString
        end.
Proof.
  unfold eoc_activity_message.
  destruct (code a) as [c|], (text a) as [[|ch t]|], (value a) as [v|]; simpl;
    try destruct (Py.truth v);
    rewrite ?append_nil_r, ?append_assoc; reflexivity.
Qed.

(** C7: an end of conversation with code success and text done returns
    normally after three calls: the summary, which contains the code line
    and the text line, then the back-in-the-root-bot reply, then a forced
    save of the cleared flag, which is absent in the cache and in storage. *)
Theorem end_of_conversation_success_done (s : option string) (a : Activity) :
  type a = end_of_conversation ->
  code a = Some "success" -> text a = Some "done" ->
  process_activity s a =
    (Returned tt,
     {| cached := None; stored := None;
        calls := [Sent (eoc_activity_message ActivityTypes_str a);
                  Sent BACK_TEXT; Saved true None] |}) /\
  Py.contains "Code: success" (eoc_activity_message ActivityTypes_str a) = true /\
  Py.contains "Text: done" (eoc_activity_message ActivityTypes_str a) = true /\
  String.prefix "Back in the root bot" BACK_TEXT = true.
Proof.
  intros Htype Hcode Htext. split.
  { open_process_activity.
    now rewrite on_turn_end_of_conversation, on_end_of_conversation_activity_runs. }
  rewrite eoc_activity_message_lines, Hcode, Htext. simpl Py.truth. cbv iota.
  split; [|split; [|reflexivity]]; apply contains_iff.
  - exists ("Received " +:+ ActivityTypes_str end_of_conversation +:+ "."
            +:+ newline +:+ newline).
    eexists. rewrite !append_assoc. reflexivity.
  - exists ("Received " +:+ ActivityTypes_str end_of_conversation +:+ "."
            +:+ newline +:+ newline +:+ "Code: success" +:+ newline +:+ newline).
    eexists. rewrite !append_assoc. reflexivity.
Qed.

(** C8: the members-added handler sends the welcome once per added member
    whose id differs from the recipient id and does nothing else; a member
    with the recipient's id is not among those counted. *)
Theorem welcome_for_each_other_member (members : list ChannelAccount.t)
    (a : Activity) (w : World) :
  on_members_added_activity members a w =
    (Returned tt,
     {| cached := cached w; stored := stored w;
        calls := calls w ++
          replicate
            (length (filter (fun member => ChannelAccount.id member
                                           <> ChannelAccount.id (recipient a)) members))
            (Sent WELCOME_TEXT) |}) /\
  (forall member,
     ChannelAccount.id member = ChannelAccount.id (recipient a) ->
     member ∉ filter (fun member => ChannelAccount.id member
                                    <> ChannelAccount.id (recipient a)) members) /\
  (forall member, member ∈ members ->
     ChannelAccount.id member <> ChannelAccount.id (recipient a) ->
     member ∈ filter (fun member => ChannelAccount.id member
                                    <> ChannelAccount.id (recipient a)) members).
Proof.
  split; [|split].
  - rewrite on_members_added_activity_runs. do 3 f_equal.
    induction (filter _ members) as [|member others IH]; simpl; congruence.
  - intros member Hsame [Hdiffers _]%list_elem_of_filter. contradiction.
  - intros member Hin Hdiffers. now apply list_elem_of_filter.
Qed.

(** C9: on an activity without text the message handler raises and leaves
    the world as it was, so no reply is sent; a whole turn on such a
    message, taken while no skill is active, ends the same way. *)
Theorem message_without_text_raises (a : Activity) (w : World) :
  text a = None ->
  on_message_activity self a w = (Raised Py.TypeError, w) /\
  (type a = message ->
     process_activity None a = (Raised Py.TypeError, begin_turn None)).
Proof.
  intros Htext. split; [now apply on_message_activity_textless|].
  intros Htype. open_process_activity.
  rewrite on_turn_idle by reflexivity.
  open_super_on_turn. rewrite Htype.
  now apply on_message_activity_textless.
Qed.

(** A message with text, taken while no skill is active: a trigger is
    acknowledged, the target skill id is saved and the transport is called
    once; any other text gets the help reply and the flag stays absent. *)
Lemma idle_message_with_text (a : Activity) (t : string) (sk : BotFrameworkSkill) :
  type a = message -> text a = Some t ->
  skills !! TARGET_SKILL_ID = Some sk ->
  process_activity None a =
    if Py.contains "skill" t
    then (delivery self a sk,
          {| cached := Some TARGET_SKILL_ID; stored := Some TARGET_SKILL_ID;
             calls := [Sent CONNECTING_TEXT; Saved true (Some TARGET_SKILL_ID);
                       Posted (_bot_id self) sk host a] |})
    else (Returned tt,
          {| cached := None; stored := None; calls := [Sent HELP_TEXT] |}).
Proof.
  intros Htype Htext Hsk. open_process_activity.
  rewrite on_turn_idle by reflexivity.
  open_super_on_turn. rewrite Htype.
  destruct (Py.contains "skill" t) eqn:Hfound.
  - now rewrite (on_message_activity_trigger a _ t sk).
  - now rewrite (on_message_activity_help a _ t).
Qed.

End Handlers.

(** ** The sample bot at work *)

(** The scenario of the sample's walkthrough: the trigger message connects
    the conversation to the echo skill. *)
Example trigger_scenario :
  process_activity Sample.render Sample.bot None (Sample.say "let's try the skill") =
    (Returned tt,
     {| cached := Some "EchoSkillBot"; stored := Some "EchoSkillBot";
        calls := [Sent "Got it, connecting you to the skill...";
                  Saved true (Some "EchoSkillBot");
                  Posted "root-app-id" Sample.echo_skill
                    "http://localhost:3978/api/skills"
                    (Sample.say "let's try the skill")] |}).
Proof. vm_compute. reflexivity. Qed.

(** The keyword test is case sensitive. *)
Example capital_keyword_is_no_trigger :
  process_activity Sample.render Sample.bot None (Sample.say "Skill please") =
    (Returned tt, {| cached := None; stored := None; calls := [Sent HELP_TEXT] |}).
Proof. vm_compute. reflexivity. Qed.

(** Alice and Bob are welcomed, the bot itself is not. *)
Example joined_scenario :
  process_activity Sample.render Sample.bot None Sample.joined =
    (Returned tt,
     {| cached := None; stored := None;
        calls := [Sent "Hello and welcome!"; Sent "Hello and welcome!"] |}).
Proof. vm_compute. reflexivity. Qed.

Example conversation_scenario :
  conversation Sample.render Sample.bot
    [Sample.say "hello"; Sample.joined; Sample.say "the skill"; Sample.say "hello";
     Sample.joined] = Some "EchoSkillBot" /\
  conversation Sample.render Sample.bot
    [Sample.say "the skill"; Sample.say "hello"; Sample.finished; Sample.say "hello"]
    = None.
Proof. split; vm_compute; reflexivity. Qed.

(** C3, at a message without text taken while no skill is active: the
    text does not contain the keyword, yet the turn raises a type error
    and sends nothing, where the help reply was due. *)
Theorem idle_message_without_text_gets_no_reply :
  type Sample.textless = message /\
  text Sample.textless = None /\
  is_trigger Sample.textless = false /\
  process_activity Sample.render Sample.bot None Sample.textless =
    (Raised Py.TypeError, {| cached := None; stored := None; calls := [] |}).
Proof. repeat split. Qed.

(** C2, as worded, fails: the summary of an end of conversation that
    carries no code still has a code line, so it is not the message made of
    the present fields only. *)
Lemma summary_has_code_line_without_code :
  code Sample.bare_end = None /\
  eoc_activity_message Sample.render Sample.bare_end =
    "Received endOfConversation." +:+ newline +:+ newline +:+ "Code: None" /\
  summary_of_present_fields Sample.render Sample.bare_end =
    "Received endOfConversation." /\
  eoc_activity_message Sample.render Sample.bare_end
    <> summary_of_present_fields Sample.render Sample.bare_end.
Proof. repeat split. discriminate. Qed.

(** C1 on the sample bot: with the echo skill active a plain message is
    forwarded to it as it came; with no active skill it gets the help reply
    of the message handler. *)
Lemma handle_turn_forwards_or_dispatches_sample :
  type (Sample.say "hello") <> end_of_conversation /\
  SKILLS (_skills_config Sample.bot) !! "EchoSkillBot" = Some Sample.echo_skill /\
  on_turn Sample.render Sample.bot (Sample.say "hello")
      (begin_turn (Some "EchoSkillBot")) =
    (Returned tt,
     {| cached := Some "EchoSkillBot"; stored := Some "EchoSkillBot";
        calls := [Saved true (Some "EchoSkillBot");
                  Posted "root-app-id" Sample.echo_skill
                    "http://localhost:3978/api/skills" (Sample.say "hello")] |}) /\
  on_turn Sample.render Sample.bot (Sample.say "hello") (begin_turn None)
    = on_message_activity Sample.bot (Sample.say "hello") (begin_turn None).
Proof.
  assert (type (Sample.say "hello") <> end_of_conversation) as Htype by discriminate.
  assert (SKILLS (_skills_config Sample.bot) !! "EchoSkillBot"
          = Some Sample.echo_skill) as Hsk by reflexivity.
  destruct (handle_turn_forwards_or_dispatches Sample.render Sample.bot
              (Sample.say "hello") (begin_turn (Some "EchoSkillBot")) Htype)
    as [Hforward _].
  destruct (handle_turn_forwards_or_dispatches Sample.render Sample.bot
              (Sample.say "hello") (begin_turn None) Htype)
    as (_ & Hdispatch & _).
  destruct (Hforward "EchoSkillBot" Sample.echo_skill eq_refl eq_refl Hsk)
    as [_ Hrun].
  destruct (Hdispatch eq_refl) as (_ & Hmessage & _).
  split; [exact Htype|]. split; [exact Hsk|].
  split; [rewrite Hrun; reflexivity | exact (Hmessage eq_refl)].
Defined.

(** C5 on the sample bot, whose configuration registers the echo skill. *)
Lemma active_skill_state_machine_sample :
  SKILLS (_skills_config Sample.bot) !! TARGET_SKILL_ID = Some Sample.echo_skill /\
  next_state Sample.render Sample.bot
    (conversation Sample.render Sample.bot []) (Sample.say "let's try the skill")
    = Some TARGET_SKILL_ID /\
  next_state Sample.render Sample.bot
    (conversation Sample.render Sample.bot [Sample.say "hello"]) (Sample.say "bye")
    = None /\
  next_state Sample.render Sample.bot
    (conversation Sample.render Sample.bot [Sample.say "the skill"]) Sample.joined
    = Some "EchoSkillBot" /\
  next_state Sample.render Sample.bot
    (conversation Sample.render Sample.bot [Sample.say "the skill"]) Sample.finished
    = None.
Proof.
  assert (SKILLS (_skills_config Sample.bot) !! TARGET_SKILL_ID
          = Some Sample.echo_skill) as Hsk by reflexivity.
  split; [exact Hsk|].
  split.
  { destruct (active_skill_state_machine Sample.render Sample.bot Sample.echo_skill
                [] (Sample.say "let's try the skill") Hsk)
      as (_ & _ & Hconnect & _).
    apply Hconnect; reflexivity. }
  split.
  { destruct (active_skill_state_machine Sample.render Sample.bot Sample.echo_skill
                [Sample.say "hello"] (Sample.say "bye") Hsk)
      as (_ & _ & _ & Hstay & _).
    apply Hstay; reflexivity. }
  split.
  { destruct (active_skill_state_machine Sample.render Sample.bot Sample.echo_skill
                [Sample.say "the skill"] Sample.joined Hsk)
      as (_ & _ & _ & _ & Hkeep & _).
    apply Hkeep; [reflexivity | discriminate]. }
  destruct (active_skill_state_machine Sample.render Sample.bot Sample.echo_skill
              [Sample.say "the skill"] Sample.finished Hsk)
    as (_ & Hend & _).
  apply Hend; reflexivity.
Defined.

(** C6 on the sample bot: the end of conversation, once and twice. *)
Lemma end_of_conversation_clears_idempotently_sample :
  type Sample.finished = end_of_conversation /\
  next_state Sample.render Sample.bot (Some "EchoSkillBot") Sample.finished = None /\
  next_state Sample.render Sample.bot
    (next_state Sample.render Sample.bot (Some "EchoSkillBot") Sample.finished)
    Sample.finished = None /\
  fst (process_activity Sample.render Sample.bot None Sample.finished) = Returned tt.
Proof.
  destruct (end_of_conversation_clears_idempotently Sample.render Sample.bot
              (Some "EchoSkillBot") Sample.finished eq_refl)
    as (_ & Hclear & _ & _ & Hagain & _).
  destruct (end_of_conversation_clears_idempotently Sample.render Sample.bot
              None Sample.finished eq_refl)
    as (Hreturns & _).
  split; [reflexivity|]. split; [exact Hclear|]. split; [|exact Hreturns].
  rewrite Hagain. exact Hclear.
Defined.

(** C7 on the sample bot, with the summary spelled out. *)
Lemma end_of_conversation_success_done_sample :
  process_activity Sample.render Sample.bot (Some "EchoSkillBot") Sample.finished =
    (Returned tt,
     {| cached := None; stored := None;
        calls := [Sent ("Received endOfConversation." +:+ newline +:+ newline
                        +:+ "Code: success" +:+ newline +:+ newline +:+ "Text: done");
                  Sent BACK_TEXT; Saved true None] |}) /\
  Py.contains "Code: success"
    (eoc_activity_message Sample.render Sample.finished) = true /\
  Py.contains "Text: done"
    (eoc_activity_message Sample.render Sample.finished) = true.
Proof.
  destruct (end_of_conversation_success_done Sample.render Sample.bot
              (Some "EchoSkillBot") Sample.finished eq_refl eq_refl eq_refl)
    as (Hrun & Hcode & Htext & _).
  split; [rewrite Hrun; reflexivity|]. split; [exact Hcode | exact Htext].
Defined.

(** C9 on the sample bot: the handler raises in any world, the turn raises
    while no skill is active. *)
Lemma message_without_text_raises_sample :
  text Sample.textless = None /\
  on_message_activity Sample.bot Sample.textless (begin_turn (Some "EchoSkillBot"))
    = (Raised Py.TypeError, begin_turn (Some "EchoSkillBot")) /\
  process_activity Sample.render Sample.bot None Sample.textless
    = (Raised Py.TypeError, begin_turn None).
Proof.
  destruct (message_without_text_raises Sample.render Sample.bot Sample.textless
              (begin_turn (Some "EchoSkillBot")) eq_refl)
    as [Hhandler Hturn].
  split; [reflexivity|]. split; [exact Hhandler | exact (Hturn eq_refl)].
Defined.

(** ** Edge behaviour of the handlers *)

Section Edges.

Context {Value : Type} `{!Py.Object Value}.
Context (ActivityTypes_str : ActivityTypes -> string).
Context (self : @RootBot Value).

#[local] Abbreviation Activity := (@Activity Value).
#[local] Abbreviation World := (@World Value).
#[local] Abbreviation on_turn := (on_turn ActivityTypes_str self).
#[local] Abbreviation super_on_turn := (super_on_turn ActivityTypes_str self).
#[local] Abbreviation process_activity := (process_activity ActivityTypes_str self).
#[local] Abbreviation next_state := (next_state ActivityTypes_str self).
#[local] Abbreviation conversation := (conversation ActivityTypes_str self).
#[local] Abbreviation skills := (SKILLS (_skills_config self)).
#[local] Abbreviation host := (SKILL_HOST_ENDPOINT (_skills_config self)).

(** X1: a trigger message, taken while no skill is active by a bot whose
    configuration lacks the target skill, is acknowledged and then fails on
    the dictionary lookup: nothing is saved or posted, and storage keeps the
    flag absent although the cache already holds the target id. *)
Theorem trigger_without_registered_target (a : Activity) :
  is_trigger a = true -> skills !! TARGET_SKILL_ID = None ->
  process_activity None a =
    (Raised (Py.KeyError TARGET_SKILL_ID),
     {| cached := Some TARGET_SKILL_ID; stored := None;
        calls := [Sent CONNECTING_TEXT] |}) /\
  next_state None a = None.
Proof.
  intros Htrigger Hsk.
  pose proof Htrigger as [Htype [t [Htext Hyes]]]%is_trigger_true.
  assert (process_activity None a =
            (Raised (Py.KeyError TARGET_SKILL_ID),
             {| cached := Some TARGET_SKILL_ID; stored := None;
                calls := [Sent CONNECTING_TEXT] |})) as Hrun.
  { open_process_activity. rewrite on_turn_idle by reflexivity.
    open_super_on_turn. rewrite Htype.
    now rewrite (on_message_activity_unregistered self a _ t). }
  split; [exact Hrun|]. open_next_state. now rewrite Hrun.
Qed.

(** X2: when the stored skill id is not a key of the configuration, a turn
    that is not an end of conversation fails on the lookup before anything
    is saved, posted or replied, and the id stays stored; an end of
    conversation still clears it. *)
Theorem active_skill_missing_from_configuration (k : string) (a e : Activity) :
  Py.truth (Some k) = true -> skills !! k = None ->
  type a <> end_of_conversation -> type e = end_of_conversation ->
  process_activity (Some k) a = (Raised (Py.KeyError k), begin_turn (Some k)) /\
  next_state (Some k) a = Some k /\
  next_state (Some k) e = None.
Proof.
  intros Htruth Hsk Htype Hend.
  assert (process_activity (Some k) a
          = (Raised (Py.KeyError k), begin_turn (Some k))) as Hrun.
  { open_process_activity. now apply on_turn_unregistered. }
  split; [exact Hrun|]. split.
  - open_next_state. now rewrite Hrun.
  - now apply next_state_end_of_conversation.
Qed.

(** X3: when the transport call fails, the turn raises the client's error
    after the forced save.  A failed trigger therefore leaves the target
    skill stored as active, and a failed forward leaves the active id as it
    was. *)
Theorem failed_delivery_keeps_skill_active (sk : BotFrameworkSkill) (a : Activity) :
  respond (_skill_client self) (_bot_id self) sk host a = None ->
  (is_trigger a = true -> skills !! TARGET_SKILL_ID = Some sk ->
     process_activity None a =
       (Raised Py.ClientError,
        {| cached := Some TARGET_SKILL_ID; stored := Some TARGET_SKILL_ID;
           calls := [Sent CONNECTING_TEXT; Saved true (Some TARGET_SKILL_ID);
                     Posted (_bot_id self) sk host a] |})) /\
  (forall k, type a <> end_of_conversation -> Py.truth (Some k) = true ->
     skills !! k = Some sk ->
     process_activity (Some k) a =
       (Raised Py.ClientError,
        {| cached := Some k; stored := Some k;
           calls := [Saved true (Some k); Posted (_bot_id self) sk host a] |})).
Proof.
  intros Hfail.
  assert (delivery self a sk = Raised Py.ClientError) as Hdelivery
    by (unfold delivery; now rewrite Hfail).
  split.
  - intros [Htype [t [Htext Hyes]]]%is_trigger_true Hsk.
    open_process_activity. rewrite on_turn_idle by reflexivity.
    open_super_on_turn. rewrite Htype.
    now rewrite (on_message_activity_trigger self a _ t sk), Hdelivery.
  - intros k Htype Htruth Hsk. open_process_activity.
    now rewrite (on_turn_active ActivityTypes_str self a _ k sk),
      send_to_skill_runs, Hdelivery.
Qed.

(** X5: while no skill is active, a turn that is neither a trigger nor an
    end of conversation only replies: it makes no save and no transport
    call and leaves cache and storage alone; it returns normally unless it
    is a message without text. *)
Theorem local_turn_only_replies (s : option string) (a : Activity) :
  Py.truth s = false -> type a <> end_of_conversation -> is_trigger a = false ->
  cached (snd (process_activity s a)) = s /\
  stored (snd (process_activity s a)) = s /\
  Forall (fun c => is_reply c = true) (calls (snd (process_activity s a))) /\
  (fst (process_activity s a) = Returned tt \/
   (type a = message /\ text a = None /\
    process_activity s a = (Raised Py.TypeError, begin_turn s))).
Proof.
  intros Hidle Htype Hplain. open_process_activity.
  rewrite on_turn_idle by exact Hidle. open_super_on_turn.
  unfold is_trigger in Hplain.
  destruct (type a) eqn:Hkind; try contradiction;
    try solve [unfold mret, Turn_ret; simpl;
               split; [|split; [|split]]; [reflexivity | reflexivity | constructor | now left]].
  - destruct (text a) as [t|] eqn:Htext.
    + rewrite (on_message_activity_help self a _ t Htext Hplain). simpl.
      repeat split; [repeat constructor | now left].
    + rewrite (on_message_activity_textless self a _ Htext). simpl.
      repeat split; [constructor | now right].
  - rewrite on_conversation_update_activity_runs. simpl.
    repeat split; [apply all_welcomes | now left].
Qed.

(** X6: what a message with text does, while no skill is active, is
    decided by whether the text can be split around the keyword: if it
    can, wherever the keyword stands and whatever surrounds it, the turn
    acknowledges, saves the target skill and posts; if it cannot, the turn
    sends the help reply and nothing else. *)
Theorem trigger_is_substring_match (a : Activity) (t : string)
    (sk : BotFrameworkSkill) :
  type a = message -> text a = Some t -> skills !! TARGET_SKILL_ID = Some sk ->
  ((exists pre post, t = pre +:+ "skill" +:+ post) ->
     process_activity None a =
       (delivery self a sk,
        {| cached := Some TARGET_SKILL_ID; stored := Some TARGET_SKILL_ID;
           calls := [Sent CONNECTING_TEXT; Saved true (Some TARGET_SKILL_ID);
                     Posted (_bot_id self) sk host a] |})) /\
  (~ (exists pre post, t = pre +:+ "skill" +:+ post) ->
     process_activity None a =
       (Returned tt,
        {| cached := None; stored := None; calls := [Sent HELP_TEXT] |})).
Proof.
  intros Htype Htext Hsk.
  pose proof (contains_iff "skill" t) as Hsplit.
  open_process_activity. rewrite on_turn_idle by reflexivity.
  open_super_on_turn. rewrite Htype.
  split.
  - intros Hyes%Hsplit.
    now rewrite (on_message_activity_trigger self a _ t sk).
  - intros Hno.
    destruct (Py.contains "skill" t) eqn:Hfound.
    + destruct Hno. now apply Hsplit.
    + now rewrite (on_message_activity_help self a _ t).
Qed.

(** X7: an end of conversation resets the conversation: the flag stored
    after a history that contains one is the flag stored after the part of
    the history that follows it. *)
Theorem end_of_conversation_resets (before after : list Activity) (e : Activity) :
  type e = end_of_conversation ->
  conversation (before ++ e :: after) = conversation after.
Proof.
  intros Hend. open_conversation.
  rewrite fold_left_app. simpl.
  now rewrite next_state_end_of_conversation.
Qed.

(** X8: with a configuration that does not register the target skill no
    history ever makes a skill active. *)
Theorem never_active_without_registered_target (history : list Activity) :
  skills !! TARGET_SKILL_ID = None -> conversation history = None.
Proof.
  intros Hsk.
  destruct (conversation_invariant ActivityTypes_str self history)
    as [Hnone | [_ [sk Hreg]]]; [exact Hnone | congruence].
Qed.

(** X10: the members-added handler over two lists in a row is the handler
    over their concatenation; over no members it does nothing; it never
    sends more replies than there are members. *)
Theorem members_added_in_parts (first second : list ChannelAccount.t)
    (a : Activity) (w : World) :
  on_members_added_activity (first ++ second) a w =
    on_members_added_activity second a (snd (on_members_added_activity first a w)) /\
  on_members_added_activity [] a w = (Returned tt, w) /\
  (length (calls (snd (on_members_added_activity first a w)))
     <= length (calls w) + length first)%nat.
Proof.
  split; [|split].
  - rewrite !on_members_added_activity_runs. simpl.
    now rewrite filter_app, map_app, app_assoc.
  - reflexivity.
  - rewrite on_members_added_activity_runs. simpl.
    rewrite length_app, length_map.
    apply Nat.add_le_mono_l, length_filter.
Qed.

(** X11: an empty string stored as the skill id counts as no active skill.
    On an activity that is not an end of conversation the turn is the base
    class dispatch, and it returns or raises the same and makes the same
    calls as a turn taken with the id absent. *)
Theorem empty_skill_id_is_idle (a : Activity) :
  type a <> end_of_conversation ->
  process_activity (Some EmptyString) a
    = super_on_turn a (begin_turn (Some EmptyString)) /\
  fst (process_activity (Some EmptyString) a) = fst (process_activity None a) /\
  calls (snd (process_activity (Some EmptyString) a))
    = calls (snd (process_activity None a)).
Proof.
  intros Hkind.
  assert (forall s, Py.truth s = false ->
            process_activity s a = super_on_turn a (begin_turn s)) as Hrun.
  { intros s Hidle. open_process_activity. now apply on_turn_idle. }
  split; [now apply Hrun|].
  rewrite !Hrun by reflexivity. open_super_on_turn.
  destruct (type a) eqn:Htype; try contradiction; try (split; reflexivity).
  - destruct (text a) as [t|] eqn:Htext.
    + destruct (Py.contains "skill" t) eqn:Hfound.
      * destruct (skills !! TARGET_SKILL_ID) as [sk|] eqn:Hsk.
        -- now rewrite !(on_message_activity_trigger self a _ t sk).
        -- now rewrite !(on_message_activity_unregistered self a _ t).
      * now rewrite !(on_message_activity_help self a _ t).
    + now rewrite !(on_message_activity_textless self a _ Htext).
  - now rewrite !on_conversation_update_activity_runs.
Qed.

End Edges.

(** X4: an end of conversation that arrives while a skill id is stored is
    handled locally: the turn makes exactly the summary reply, the
    back-in-the-root-bot reply and the forced save of the cleared flag, so
    no transport call, and this depends neither on the bot (its
    configuration, its client) nor on which id was stored. *)
Theorem end_of_conversation_is_handled_locally {Value : Type} `{!Py.Object Value}
    (ActivityTypes_str : ActivityTypes -> string) (self other : @RootBot Value)
    (k k' : string) (a : @Activity Value) :
  type a = end_of_conversation ->
  process_activity ActivityTypes_str self (Some k) a =
    (Returned tt,
     {| cached := None; stored := None;
        calls := [Sent (eoc_activity_message ActivityTypes_str a);
                  Sent BACK_TEXT; Saved true None] |}) /\
  process_activity ActivityTypes_str self (Some k) a
    = process_activity ActivityTypes_str other (Some k') a.
Proof.
  intros Hend. unfold process_activity.
  rewrite !on_turn_end_of_conversation, !on_end_of_conversation_activity_runs
    by exact Hend.
  split; reflexivity.
Qed.

(** X9: in any turn of a bot built by the constructor there is at most one
    transport call, and it goes out from the configured app id with the
    host endpoint as callback, carries the inbound activity itself and
    targets a skill of the configuration. *)
Theorem every_post_carries_the_inbound_activity {Value : Type} `{!Py.Object Value}
    (ActivityTypes_str : ActivityTypes -> string)
    (skills_config : SkillConfiguration) (skill_client : @BotFrameworkHttpClient Value)
    (config : DefaultConfig) (s : option string) (a : @Activity Value) :
  Forall (posts_inbound (APP_ID config) (SKILL_HOST_ENDPOINT skills_config)
            (SKILLS skills_config) a)
         (calls (snd (process_activity ActivityTypes_str
                        (__init__ skills_config skill_client config) s a))) /\
  (length (List.filter is_post
             (calls (snd (process_activity ActivityTypes_str
                            (__init__ skills_config skill_client config) s a))))
     <= 1)%nat.
Proof.
  destruct (process_activity_path ActivityTypes_str
              (__init__ skills_config skill_client config) s a)
    as [ | k sk _ _ _ Hsk | | sk _ _ Hsk | | outcome replies _ _ _ Hreplies]; simpl.
  - split; [repeat (constructor; [exact I|]); constructor | auto].
  - split; [|auto]. constructor; [exact I|]. constructor; [|constructor].
    simpl. eauto.
  - split; [constructor | auto].
  - split; [|auto]. do 2 (constructor; [exact I|]). constructor; [|constructor].
    simpl. eauto.
  - split; [repeat (constructor; [exact I|]); constructor | auto].
  - induction Hreplies as [|c replies Hc _ [IHall IHcount]]; [split; [constructor | auto]|].
    destruct c; try discriminate. split; [constructor; [exact I | exact IHall] | exact IHcount].
Qed.

(** ** The edge cases on concrete bots *)

(** X1 on the bot without skills: the user is told a connection is being
    made, then the turn fails and the conversation stays idle. *)
Lemma trigger_without_registered_target_sample :
  is_trigger (Sample.say "the skill") = true /\
  SKILLS (_skills_config Faulty.unconfigured) !! TARGET_SKILL_ID = None /\
  process_activity Sample.render Faulty.unconfigured None (Sample.say "the skill") =
    (Raised (Py.KeyError "EchoSkillBot"),
     {| cached := Some "EchoSkillBot"; stored := None;
        calls := [Sent "Got it, connecting you to the skill..."] |}).
Proof.
  split; [reflexivity|]. split; [reflexivity|].
  exact (proj1 (trigger_without_registered_target Sample.render Faulty.unconfigured
                  (Sample.say "the skill") eq_refl eq_refl)).
Defined.

(** X2 on the bot without skills, with the echo skill left in storage. *)
Lemma active_skill_missing_from_configuration_sample :
  SKILLS (_skills_config Faulty.unconfigured) !! "EchoSkillBot" = None /\
  process_activity Sample.render Faulty.unconfigured (Some "EchoSkillBot")
    (Sample.say "hello")
    = (Raised (Py.KeyError "EchoSkillBot"), begin_turn (Some "EchoSkillBot")) /\
  next_state Sample.render Faulty.unconfigured (Some "EchoSkillBot") Sample.finished
    = None.
Proof.
  assert (type (Sample.say "hello") <> end_of_conversation) as Htype by discriminate.
  destruct (active_skill_missing_from_configuration Sample.render Faulty.unconfigured
              "EchoSkillBot" (Sample.say "hello") Sample.finished
              eq_refl eq_refl Htype eq_refl)
    as (Hrun & _ & Hend).
  split; [reflexivity|]. split; [exact Hrun | exact Hend].
Defined.

(** X3 on the bot whose skill is unreachable: the failed trigger leaves the
    echo skill active. *)
Lemma failed_delivery_keeps_skill_active_sample :
  respond (_skill_client Faulty.offline) (_bot_id Faulty.offline) Sample.echo_skill
    (SKILL_HOST_ENDPOINT (_skills_config Faulty.offline)) (Sample.say "the skill")
    = None /\
  fst (process_activity Sample.render Faulty.offline None (Sample.say "the skill"))
    = Raised Py.ClientError /\
  next_state Sample.render Faulty.offline None (Sample.say "the skill")
    = Some "EchoSkillBot".
Proof.
  destruct (failed_delivery_keeps_skill_active Sample.render Faulty.offline
              Sample.echo_skill (Sample.say "the skill") eq_refl)
    as [Htrigger _].
  pose proof (Htrigger eq_refl eq_refl) as Hrun.
  split; [reflexivity|]. unfold next_state. rewrite Hrun. split; reflexivity.
Defined.

(** X4 on the sample end of conversation: the well configured bot with the
    echo skill active and the bot without skills with another id stored do
    the same. *)
Lemma end_of_conversation_is_handled_locally_sample :
  type Sample.finished = end_of_conversation /\
  process_activity Sample.render Sample.bot (Some "EchoSkillBot") Sample.finished
    = process_activity Sample.render Faulty.unconfigured (Some "OtherSkill")
        Sample.finished /\
  calls (snd (process_activity Sample.render Sample.bot (Some "EchoSkillBot")
                Sample.finished))
    = [Sent (eoc_activity_message Sample.render Sample.finished);
       Sent BACK_TEXT; Saved true None].
Proof.
  destruct (end_of_conversation_is_handled_locally Sample.render Sample.bot
              Faulty.unconfigured "EchoSkillBot" "OtherSkill" Sample.finished
              eq_refl)
    as [Hrun Hsame].
  split; [reflexivity|]. split; [exact Hsame|]. now rewrite Hrun.
Defined.

(** X5 on the sample conversation update, in a new conversation. *)
Lemma local_turn_only_replies_sample :
  is_trigger Sample.joined = false /\
  stored (snd (process_activity Sample.render Sample.bot None Sample.joined)) = None /\
  Forall (fun c => is_reply c = true)
    (calls (snd (process_activity Sample.render Sample.bot None Sample.joined))).
Proof.
  assert (type Sample.joined <> end_of_conversation) as Htype by discriminate.
  destruct (local_turn_only_replies Sample.render Sample.bot None Sample.joined
              eq_refl Htype eq_refl)
    as (_ & Hstored & Hreplies & _).
  split; [reflexivity|]. split; [exact Hstored | exact Hreplies].
Defined.

(** X7 on the sample bot: what came before the end of conversation does not
    count. *)
Lemma end_of_conversation_resets_sample :
  type Sample.finished = end_of_conversation /\
  conversation Sample.render Sample.bot
    ([Sample.say "the skill"; Sample.say "hello"]
       ++ Sample.finished :: [Sample.say "hello"])
    = conversation Sample.render Sample.bot [Sample.say "hello"].
Proof.
  split; [reflexivity|].
  exact (end_of_conversation_resets Sample.render Sample.bot
           [Sample.say "the skill"; Sample.say "hello"] [Sample.say "hello"]
           Sample.finished eq_refl).
Defined.

(** X8 on the bot without skills: asking twice does not help. *)
Lemma never_active_without_registered_target_sample :
  SKILLS (_skills_config Faulty.unconfigured) !! TARGET_SKILL_ID = None /\
  conversation Sample.render Faulty.unconfigured
    [Sample.say "the skill"; Sample.say "hello"; Sample.say "skill, please"] = None.
Proof.
  split; [reflexivity|].
  exact (never_active_without_registered_target Sample.render Faulty.unconfigured
           [Sample.say "the skill"; Sample.say "hello"; Sample.say "skill, please"]
           eq_refl).
Defined.

(** X6 on the sample bot: the keyword inside a longer word connects, the
    capitalised keyword does not. *)
Lemma trigger_is_substring_match_sample :
  SKILLS (_skills_config Sample.bot) !! TARGET_SKILL_ID = Some Sample.echo_skill /\
  stored (snd (process_activity Sample.render Sample.bot None
                 (Sample.say "upskilling today"))) = Some "EchoSkillBot" /\
  process_activity Sample.render Sample.bot None (Sample.say "Skill please") =
    (Returned tt, {| cached := None; stored := None; calls := [Sent HELP_TEXT] |}).
Proof.
  destruct (trigger_is_substring_match Sample.render Sample.bot
              (Sample.say "upskilling today") "upskilling today" Sample.echo_skill
              eq_refl eq_refl eq_refl)
    as [Hconnect _].
  destruct (trigger_is_substring_match Sample.render Sample.bot
              (Sample.say "Skill please") "Skill please" Sample.echo_skill
              eq_refl eq_refl eq_refl)
    as [_ Hhelp].
  split; [reflexivity|]. split.
  - rewrite Hconnect; [reflexivity|]. now exists "up", "ing today".
  - apply Hhelp. intros Hsplit%contains_iff. discriminate Hsplit.
Defined.

(** X11 on the sample bot: a trigger message connects from the empty id as
    it does from an absent one. *)
Lemma empty_skill_id_is_idle_sample :
  type (Sample.say "the skill") <> end_of_conversation /\
  calls (snd (process_activity Sample.render Sample.bot (Some EmptyString)
                (Sample.say "the skill")))
    = calls (snd (process_activity Sample.render Sample.bot None
                    (Sample.say "the skill"))).
Proof.
  assert (type (Sample.say "the skill") <> end_of_conversation) as Htype
    by discriminate.
  split; [exact Htype|].
  exact (proj2 (proj2 (empty_skill_id_is_idle Sample.render Sample.bot
                         (Sample.say "the skill") Htype))).
Defined.
